(** * runsd: host resolution, the Director hook and the token audience

    A shallow embedding of [proxy.go] and [authorization.go].

    Go strings are byte sequences and are modelled by [string] (a sequence
    of 8-bit [ascii]).  Host names reaching the proxy are ASCII; the library
    functions [strings.ToLower] and [strconv.Quote] are embedded for ASCII
    input, bytes above 0x7f are outside the model (see the two definitions).

    The code talks to the outside (process environment, metadata server,
    token provider, klog): these are oracles of a [World], and every call is
    recorded in a trace of [Event]s. *)

From Stdlib Require Import Ascii String ZArith NArith Lia Bool.
From stdpp Require Import base option list gmap strings.

Local Open Scope char_scope.
Local Open Scope stdpp_scope.

(** * The model *)

(** ** Bytes and strings (package [strings], [bytealg]) *)

Module GoString.

(** [lo <= c && c <= hi] on bytes. *)
Definition between (lo hi c : ascii) : bool :=
  (N_of_ascii lo <=? N_of_ascii c)%N && (N_of_ascii c <=? N_of_ascii hi)%N.

(** [strings.ToLower], ASCII path: ['A' <= c && c <= 'Z'] gives
    [c += 'a' - 'A'].  Bytes above 0x7f are left as they are (Go decodes
    them as UTF-8 and applies [unicode.ToLower]). *)
Definition toLowerByte (c : ascii) : ascii :=
  if between "A" "Z" c then ascii_of_N (N_of_ascii c + 32) else c.

Fixpoint ToLower (s : string) : string :=
  match s with
  | EmptyString => EmptyString
  | String c s' => String (toLowerByte c) (ToLower s')
  end.

(** [strings.HasPrefix(s, prefix)]. *)
Fixpoint HasPrefix (s prefix : string) {struct prefix} : bool :=
  match prefix, s with
  | EmptyString, _ => true
  | String _ _, EmptyString => false
  | String p prefix', String c s' => Ascii.eqb c p && HasPrefix s' prefix'
  end.

(** [strings.Contains(s, substr)], that is [Index(s, substr) >= 0]. *)
Fixpoint Contains (s substr : string) : bool :=
  HasPrefix s substr ||
  match s with
  | EmptyString => false
  | String _ s' => Contains s' substr
  end.

(** [s[n:]] and [s[:n]]. *)
Fixpoint from (n : nat) (s : string) : string :=
  match n, s with
  | O, _ => s
  | S _, EmptyString => EmptyString
  | S n', String _ s' => from n' s'
  end.

Fixpoint upto (n : nat) (s : string) : string :=
  match n, s with
  | O, _ => EmptyString
  | S _, EmptyString => EmptyString
  | S n', String c s' => String c (upto n' s')
  end.

(** [s[lo:hi]]. *)
Definition slice (lo hi : nat) (s : string) : string :=
  upto (hi - lo) (from lo s).

(** [bytealg.IndexByteString]: the index of the first [c], Go's [-1] is
    [None]. *)
Fixpoint IndexByte (s : string) (c : ascii) : option nat :=
  match s with
  | EmptyString => None
  | String d s' => if Ascii.eqb d c then Some O else S <$> IndexByte s' c
  end.

(** [bytealg.LastIndexByteString]: the index of the last [c]. *)
Fixpoint LastIndexByte (s : string) (c : ascii) : option nat :=
  match s with
  | EmptyString => None
  | String d s' =>
      match LastIndexByte s' c with
      | Some i => Some (S i)
      | None => if Ascii.eqb d c then Some O else None
      end
  end.

(** [strings.HasSuffix] and [strings.TrimSuffix]. *)
Definition HasSuffix (s suffix : string) : bool :=
  (String.length suffix <=? String.length s)%nat &&
  String.eqb (from (String.length s - String.length suffix) s) suffix.

Definition TrimSuffix (s suffix : string) : string :=
  if HasSuffix s suffix
  then upto (String.length s - String.length suffix) s
  else s.

(** [strings.Trim(s, cutset)]: leading and trailing bytes of [cutset]
    removed. *)
Definition inCutset (cutset : string) (c : ascii) : bool :=
  bool_decide (is_Some (IndexByte cutset c)).

Fixpoint TrimLeft (s cutset : string) : string :=
  match s with
  | EmptyString => EmptyString
  | String c s' => if inCutset cutset c then TrimLeft s' cutset else s
  end.

Fixpoint TrimRight (s cutset : string) : string :=
  match s with
  | EmptyString => EmptyString
  | String c s' =>
      match TrimRight s' cutset with
      | EmptyString => if inCutset cutset c then EmptyString else String c EmptyString
      | t => String c t
      end
  end.

Definition Trim (s cutset : string) : string :=
  TrimRight (TrimLeft s cutset) cutset.

(** [strings.Count(s, substr)] for a one-byte [substr], which is
    [bytealg.CountString(s, substr[0])]. *)
Fixpoint CountByte (s : string) (c : ascii) : nat :=
  match s with
  | EmptyString => O
  | String d s' => (if Ascii.eqb d c then 1 else 0) + CountByte s' c
  end.

(** [strings.Split(s, sep)] for a one-byte separator: the pieces of [s]
    between the occurrences of [sep]; never the empty list. *)
Fixpoint SplitByte (s : string) (sep : ascii) : list string :=
  match s with
  | EmptyString => [EmptyString]
  | String c s' =>
      if Ascii.eqb c sep then EmptyString :: SplitByte s' sep
      else match SplitByte s' sep with
           | piece :: rest => String c piece :: rest
           | [] => [String c EmptyString]
           end
  end.

(** ** [strconv.Quote], the [%q] verb of [fmt] on a string *)

Definition dquote : ascii := "034".
Definition backslash : ascii := "\".

Definition lowerhex (n : N) : ascii :=
  match String.get (N.to_nat n) "0123456789abcdef" with
  | Some d => d
  | None => "0"
  end.

Definition hexEscape (c : ascii) : string :=
  String backslash
    (String "x"
       (String (lowerhex (N_of_ascii c / 16))
          (String (lowerhex (N_of_ascii c mod 16)) EmptyString))).

(** [appendEscapedRune] on one byte.  A byte above 0x7f is written as
    [\xNN], which is what Go does with a byte that is not part of a valid
    UTF-8 sequence (valid multi-byte runes are outside the model). *)
Definition quoteByte (c : ascii) : string :=
  if Ascii.eqb c dquote || Ascii.eqb c backslash
  then String backslash (String c EmptyString)
  else if between " " "~" c then String c EmptyString
  else match N_of_ascii c with
       | 7%N => "\a"
       | 8%N => "\b"
       | 12%N => "\f"
       | 10%N => "\n"
       | 13%N => "\r"
       | 9%N => "\t"
       | 11%N => "\v"
       | _ => hexEscape c
       end.

Fixpoint quoteBody (s : string) : string :=
  match s with
  | EmptyString => EmptyString
  | String c s' => quoteByte c +:+ quoteBody s'
  end.

Definition Quote (s : string) : string :=
  String dquote (quoteBody s +:+ String dquote EmptyString).

End GoString.

Import GoString.

(** ** Errors, requests and responses *)

(** A Go [error] built by [fmt.Errorf] is its message. *)
Definition error : Type := string.

(** [url.URL]: the two fields the Director writes, and the path for the
    fields it leaves alone. *)
Record URL : Type := {
  Scheme : string;
  u_Host : string;
  Path : string
}.

(** [http.Response].  The [Request] back-pointer of the Go struct is left
    out: in the Director it points to the very request that holds the
    response in its context. *)
Record Response : Type := {
  StatusCode : Z;
  Body : string
}.

(** A value stored in a [context.Context] under a string key. *)
Inductive ctxValue : Type :=
| CtxResponse (resp : Response)
| CtxOther (v : string).

(** [context.Context] as the chain of [context.WithValue] bindings, the
    newest first. *)
Definition Context : Type := list (string * ctxValue).

Definition WithValue (parent : Context) (key : string) (val : ctxValue) : Context :=
  (key, val) :: parent.

Fixpoint Value (c : Context) (key : string) : option ctxValue :=
  match c with
  | [] => None
  | (k, v) :: parent => if String.eqb k key then Some v else Value parent key
  end.

(** [http.Request]. *)
Record Request : Type := {
  Method : string;
  Url : URL;
  Header : gmap string (list string);
  Host : string;
  ctx : Context
}.

Definition StatusInternalServerError : Z := 500.

Definition ctxKeyEarlyResponse : string := "early-response".

(** [req.WithContext(c)]: a copy of the request with its context replaced. *)
Definition WithContext (req : Request) (c : Context) : Request :=
  {| Method := Method req; Url := Url req; Header := Header req;
     Host := Host req; ctx := c |}.

(** [textproto.CanonicalMIMEHeaderKey], applied by [Header.Set] to its key. *)
Definition validHeaderFieldByte (c : ascii) : bool :=
  between "a" "z" c || between "A" "Z" c || between "0" "9" c
  || inCutset "!#$%&'*+-.^_`|~" c.

Fixpoint allValidHeaderFieldBytes (s : string) : bool :=
  match s with
  | EmptyString => true
  | String c s' => validHeaderFieldByte c && allValidHeaderFieldBytes s'
  end.

Fixpoint canonicalize (upper : bool) (s : string) : string :=
  match s with
  | EmptyString => EmptyString
  | String c s' =>
      let c' :=
        if upper && between "a" "z" c then ascii_of_N (N_of_ascii c - 32)
        else if negb upper && between "A" "Z" c then ascii_of_N (N_of_ascii c + 32)
        else c in
      String c' (canonicalize (Ascii.eqb c' "-") s')
  end.

Definition CanonicalMIMEHeaderKey (s : string) : string :=
  if allValidHeaderFieldBytes s then canonicalize true s else s.

Definition Header_Set (h : gmap string (list string)) (key value : string)
  : gmap string (list string) :=
  <[CanonicalMIMEHeaderKey key := [value]]> h.

(** [http.NewRequest(method, url, nil)] with the URL already parsed. *)
Definition NewRequest (method : string) (u : URL) : Request :=
  {| Method := method; Url := u; Header := ∅; Host := u_Host u; ctx := [] |}.

(** ** The outside world and the trace *)

Inductive fmtArg : Type :=
| ArgString (s : string)
| ArgInt (n : Z)
| ArgURL (u : URL)
| ArgError (e : error).

(** What the code does to the outside, in order. *)
Inductive Event : Type :=
| Klog_V (level : nat) (format : string) (args : list fmtArg)
| Klog_Warning (format : string) (args : list fmtArg)
| Call_Getenv (key : string)
| Call_Do (req : Request)
| Call_identityToken (audience : string)
| Call_RoundTrip (req : Request).

(** The answers of the outside during one request.  [client_Do] is
    [client.Do]: [None] when it returns an error, otherwise the response
    with the bytes [ioutil.ReadAll] gets from its body (the error of
    [ReadAll] is not looked at by the code).  [identityToken] is the token
    provider of the repository and [base_RoundTrip] the sender under the
    transport chain; both live outside these sources. *)
Record World : Type := {
  os_Getenv : string -> string;
  client_Do : Request -> option Response;
  identityToken : string -> string * option error;
  base_RoundTrip : Request -> Response + error
}.

(** Computations that read the world and append to the trace. *)
Definition M (A : Type) : Type := World -> A * list Event.

#[global] Instance M_ret : MRet M := fun A (a : A) _ => (a, []).

#[global] Instance M_bind : MBind M := fun A B (k : A -> M B) (m : M A) w =>
  let '(a, t1) := m w in
  let '(b, t2) := k a w in
  (b, t1 ++ t2).

Definition result {A : Type} (m : M A) (w : World) : A := fst (m w).
Definition trace {A : Type} (m : M A) (w : World) : list Event := snd (m w).

Definition klog_V (level : nat) (format : string) (args : list fmtArg) : M unit :=
  fun _ => (tt, [Klog_V level format args]).

Definition klog_Warning (format : string) (args : list fmtArg) : M unit :=
  fun _ => (tt, [Klog_Warning format args]).

Definition Getenv (key : string) : M string :=
  fun w => (os_Getenv w key, [Call_Getenv key]).

Definition Do (req : Request) : M (option Response) :=
  fun w => (client_Do w req, [Call_Do req]).

Definition call_identityToken (audience : string) : M (string * option error) :=
  fun w => (identityToken w audience, [Call_identityToken audience]).

Definition call_RoundTrip (req : Request) : M (Response + error) :=
  fun w => (base_RoundTrip w req, [Call_RoundTrip req]).

(** ** [net.SplitHostPort] *)

Definition addrError (addr why : string) : error :=
  if String.eqb addr "" then why else "address " +:+ addr +:+ ": " +:+ why.

Definition SplitHostPort (hostport : string) : string * string * option error :=
  let missingPort := "missing port in address" in
  let tooManyColons := "too many colons in address" in
  let addrErr (why : string) : string * string * option error :=
    ("", "", Some (addrError hostport why)) in
  match LastIndexByte hostport ":" with
  | None => addrErr missingPort
  | Some i =>
      let finish (host : string) (j k : nat) :=
        if bool_decide (is_Some (IndexByte (from j hostport) "[")) then
          addrErr "unexpected '[' in address"
        else if bool_decide (is_Some (IndexByte (from k hostport) "]")) then
          addrErr "unexpected ']' in address"
        else (host, from (i + 1) hostport, None) in
      if bool_decide (String.get 0 hostport = Some "["%char) then
        (* Expect the first ']' just before the last ':'. *)
        match IndexByte hostport "]" with
        | None => addrErr "missing ']' in address"
        | Some end_ =>
            if (end_ + 1 =? String.length hostport)%nat then addrErr missingPort
            else if (end_ + 1 =? i)%nat then
              finish (slice 1 end_ hostport) 1 (end_ + 1)
            else if bool_decide (String.get (end_ + 1) hostport = Some ":"%char) then
              addrErr tooManyColons
            else addrErr missingPort
        end
      else
        let host := upto i hostport in
        if bool_decide (is_Some (IndexByte host ":")) then addrErr tooManyColons
        else finish host 0 0
  end.

(** ** proxy.go *)

Record reverseProxy : Type := {
  projectHash : string;
  currentRegion : string;
  internalDomain : string
}.

Definition newReverseProxy (projectHash currentRegion internalDomain : string)
  : reverseProxy :=
  {| projectHash := projectHash; currentRegion := currentRegion;
     internalDomain := internalDomain |}.

(** [fmt.Sprintf("%s-%s-%s.a.run.app", svc, projectHash, regionCode)]. *)
Definition mkCloudRunHost (svc regionCode projectHash : string) : string :=
  svc +:+ "-" +:+ projectHash +:+ "-" +:+ regionCode +:+ ".a.run.app".

(** [fmt.Errorf("region %q is not handled", r)]. *)
Definition errRegionNotHandled (r : string) : error :=
  "region " +:+ Quote r +:+ " is not handled".

(** [fmt.Errorf("Can`t retrieve region for current execution")]. *)
Definition errCantRetrieveRegion : error :=
  "Can`t retrieve region for current execution".

Definition metadataRegionURL : URL :=
  {| Scheme := "http"; u_Host := "metadata.google.internal";
     Path := "/computeMetadata/v1/instance/region" |}.

(** The request built at lines 114-115 of proxy.go. *)
Definition metadataRegionRequest : Request :=
  let req := NewRequest "GET" metadataRegionURL in
  {| Method := Method req; Url := Url req;
     Header := Header_Set (Header req) "Metadata-Flavor" "Google";
     Host := Host req; ctx := ctx req |}.

Section Proxy.

(** The region code table [cloudRunRegionCodes] is a map of the repository
    declared outside these sources. *)
Variable cloudRunRegionCodes : gmap string string.

Definition resolveCloudRunHost
    (internalDomain hostname curRegion projectHash : string)
  : M (string * option error) :=
  let hostname := ToLower hostname in
  if negb (Contains hostname ".") then
    (* in the same region *)
    match cloudRunRegionCodes !! curRegion with
    | None => mret ("", Some (errRegionNotHandled curRegion))
    | Some rc => mret (mkCloudRunHost hostname rc projectHash, None)
    end
  else
    let trimmed := TrimSuffix hostname ("." +:+ Trim internalDomain ".") in
    klog_V 5 "number of trimmed=%s" [ArgInt (Z.of_nat (CountByte trimmed "."))] ;;
    svc ← Getenv "K_SERVICE";
    klog_V 5 "service name response=%s" [ArgString svc] ;;
    r ← Do metadataRegionRequest;
    match r with
    | None => mret ("", Some errCantRetrieveRegion)
    | Some resp =>
        let responseString := Body resp in
        let responseSplitted := SplitByte responseString "/" in
        let region := List.last responseSplitted "" in
        klog_V 5 "region response=%s" [ArgString region] ;;
        match cloudRunRegionCodes !! region with
        | None => mret ("", Some (errRegionNotHandled curRegion))
        | Some rc => mret (mkCloudRunHost svc rc projectHash, None)
        end
    end.

(** Lines 63-67: the port of the [Host] value is discarded when
    [net.SplitHostPort] accepts it. *)
Definition discardPort (origHost : string) : M string :=
  match SplitHostPort origHost with
  | (h, p, None) =>
      klog_V 6 "discarding port=%v in host=%s" [ArgString p; ArgString origHost] ;;
      mret h
  | (_, _, Some _) => mret origHost
  end.

(** The body of the synthetic response,
    [fmt.Sprintf("runsd doesn't know how to handle host=%q: %v", host, err)]. *)
Definition earlyResponseBody (host : string) (err : error) : string :=
  "runsd doesn't know how to handle host=" +:+ Quote host +:+ ": " +:+ err.

(** The [Director] closure of [newReverseProxyHandler]; the request it
    mutates in place is returned. *)
Definition Director (rp : reverseProxy) (req : Request) : M Request :=
  klog_V 5 "[director] receive req host=%s" [ArgString (Host req)] ;;
  origHost ← discardPort (Host req);
  '(runHost, err) ← resolveCloudRunHost (internalDomain rp) origHost
                      (currentRegion rp) (projectHash rp);
  match err with
  | Some e =>
      klog_Warning
        "WARN: reverse proxy failed to find a Cloud Run URL for host=%s: %v"
        [ArgString (Host req); ArgError e] ;;
      let resp := {| StatusCode := StatusInternalServerError;
                     Body := earlyResponseBody (Host req) e |} in
      let newReq :=
        WithContext req
          (WithValue (ctx req) ctxKeyEarlyResponse (CtxResponse resp)) in
      mret newReq
  | None =>
      let url := {| Scheme := "https"; u_Host := runHost;
                    Path := Path (Url req) |} in
      let req' := {| Method := Method req; Url := url;
                     Header := Header_Set (Header req) "host" runHost;
                     Host := runHost; ctx := ctx req |} in
      klog_V 5 "[director] rewrote host=%s to=%s new_url=%q"
        [ArgString origHost; ArgString runHost; ArgURL url] ;;
      mret req'
  end.

(** ** authorization.go *)

Definition tokenFromHost (host : string) : M (string * option error) :=
  '(idToken, err) ← call_identityToken ("https://" +:+ host);
  klog_V 5 "[authorization] receive idToken=%s" [ArgString idToken] ;;
  match err with
  | Some e =>
      mret ("", Some ("failed to fetch metadata token from host "
                      +:+ host +:+ ": " +:+ e))
  | None => mret (idToken, None)
  end.

(** ** The engine around the Director *)




End Proxy.

(** ** Vocabulary of the statements *)

(** The region reported by the metadata server: the last segment of the
    body (lines 122-125). *)
Definition metadataRegion (resp : Response) : string :=
  List.last (SplitByte (Body resp) "/") "".

(** The region whose code the resolver looks up: the current region for a
    bare host name (line 97), the region reported by the metadata server for
    a qualified one (line 128); none when the metadata request fails. *)
Definition lookupRegion (hostname curRegion : string) (w : World) : option string :=
  if Contains hostname "." then
    metadataRegion <$> client_Do w metadataRegionRequest
  else Some curRegion.

(** The value of [origHost] at line 68. *)
Definition origHostOf (host : string) : string :=
  match SplitHostPort host with
  | (h, _, None) => h
  | (_, _, Some _) => host
  end.

(** What the Director does to the request, by the outcome of line 68. *)
Definition directorOutcome (rp : reverseProxy) (req : Request)
    (res : string * option error) : Request :=
  match res with
  | (_, Some e) =>
      WithContext req
        (WithValue (ctx req) ctxKeyEarlyResponse
           (CtxResponse {| StatusCode := StatusInternalServerError;
                           Body := earlyResponseBody (Host req) e |}))
  | (runHost, None) =>
      {| Method := Method req;
         Url := {| Scheme := "https"; u_Host := runHost; Path := Path (Url req) |};
         Header := Header_Set (Header req) "host" runHost;
         Host := runHost; ctx := ctx req |}
  end.

(** [req.Host = host]. *)
Definition setHost (req : Request) (host : string) : Request :=
  {| Method := Method req; Url := Url req; Header := Header req;
     Host := host; ctx := ctx req |}.



(** Two bytes that are equal or are the upper-case and lower-case form of
    one letter. *)
Definition sameLetter (a b : ascii) : bool :=
  Ascii.eqb a b
  || (between "A" "Z" a && (N_of_ascii b =? N_of_ascii a + 32)%N)
  || (between "A" "Z" b && (N_of_ascii a =? N_of_ascii b + 32)%N).

(** Two host names that differ only in the case of their letters. *)
Fixpoint differOnlyInCase (s t : string) : bool :=
  match s, t with
  | EmptyString, EmptyString => true
  | String a s', String b t' => sameLetter a b && differOnlyInCase s' t'
  | _, _ => false
  end.



(** A string without colon and without square bracket. *)
Definition bracketFree (s : string) : Prop :=
  IndexByte s ":" = None /\ IndexByte s "[" = None /\ IndexByte s "]" = None.

Definition hexValue (c : ascii) : option N :=
  N.of_nat <$> IndexByte "0123456789abcdef" c.

(** Reads one quoted byte back from the front of a string. *)
Definition unquoteByte (s : string) : option (ascii * string) :=
  match s with
  | EmptyString => None
  | String c s' =>
      if Ascii.eqb c dquote then None
      else if Ascii.eqb c backslash then
        match s' with
        | EmptyString => None
        | String e s'' =>
            if Ascii.eqb e "a" then Some ("007"%char, s'')
            else if Ascii.eqb e "b" then Some ("008"%char, s'')
            else if Ascii.eqb e "f" then Some ("012"%char, s'')
            else if Ascii.eqb e "n" then Some ("010"%char, s'')
            else if Ascii.eqb e "r" then Some ("013"%char, s'')
            else if Ascii.eqb e "t" then Some ("009"%char, s'')
            else if Ascii.eqb e "v" then Some ("011"%char, s'')
            else if Ascii.eqb e backslash then Some (backslash, s'')
            else if Ascii.eqb e dquote then Some (dquote, s'')
            else if Ascii.eqb e "x" then
              match s'' with
              | String hi (String lo rest) =>
                  match hexValue hi, hexValue lo with
                  | Some a, Some b => Some (ascii_of_N (16 * a + b), rest)
                  | _, _ => None
                  end
              | _ => None
              end
            else None
        end
      else Some (c, s')
  end.

(** The events of a trace that are calls to the outside, the klog lines
    left out. *)
Definition isCall (e : Event) : bool :=
  match e with
  | Klog_V _ _ _ | Klog_Warning _ _ => false
  | _ => true
  end.

Definition calls (t : list Event) : list Event := List.filter isCall t.

(** A string without the ["-"] that [mkCloudRunHost] puts between the parts
    of an authority. *)
Definition dashFree (s : string) : Prop := IndexByte s "-" = None.

(** ** Sample inputs *)

(** Modelled from the spec: a region code table with the one entry that
    section 8 names, region us-central1 with code uc1. *)
Definition exampleRegionCodes : gmap string string :=
  {[ "us-central1" := "uc1" ]}.

Definition exampleWorld : World :=
  {| os_Getenv := fun key => if String.eqb key "K_SERVICE" then "myservice" else "";
     client_Do := fun _ =>
       Some {| StatusCode := 200; Body := "projects/123456/regions/us-central1" |};
     identityToken := fun audience => ("token-for-" +:+ audience, None);
     base_RoundTrip := fun _ => inl {| StatusCode := 200; Body := "ok" |} |}.

(** A metadata server that reports a region missing from the table. *)
Definition marsWorld : World :=
  {| os_Getenv := os_Getenv exampleWorld;
     client_Do := fun _ =>
       Some {| StatusCode := 200; Body := "projects/123456/regions/mars-north1" |};
     identityToken := identityToken exampleWorld;
     base_RoundTrip := base_RoundTrip exampleWorld |}.

(** A metadata server that answers 503 with an empty body. *)
Definition emptyBodyWorld : World :=
  {| os_Getenv := os_Getenv exampleWorld;
     client_Do := fun _ => Some {| StatusCode := 503; Body := "" |};
     identityToken := identityToken exampleWorld;
     base_RoundTrip := base_RoundTrip exampleWorld |}.

(** A metadata server that answers 500 with a text that is no region path
    but ends in the name of a region. *)
Definition errorPageWorld : World :=
  {| os_Getenv := os_Getenv exampleWorld;
     client_Do := fun _ =>
       Some {| StatusCode := 500; Body := "internal error/us-central1" |};
     identityToken := identityToken exampleWorld;
     base_RoundTrip := base_RoundTrip exampleWorld |}.

(** A metadata server that cannot be reached. *)
Definition unreachableWorld : World :=
  {| os_Getenv := os_Getenv exampleWorld;
     client_Do := fun _ => None;
     identityToken := identityToken exampleWorld;
     base_RoundTrip := base_RoundTrip exampleWorld |}.

(** A token provider that refuses. *)
Definition refusingWorld : World :=
  {| os_Getenv := os_Getenv exampleWorld;
     client_Do := client_Do exampleWorld;
     identityToken := fun _ => ("", Some "metadata server unreachable");
     base_RoundTrip := base_RoundTrip exampleWorld |}.

(** A request as the server hands it to the proxy: the [Host] header is in
    the [Host] field, the URL has the path only. *)
Definition inboundRequest (host : string) : Request :=
  {| Method := "GET"; Url := {| Scheme := ""; u_Host := ""; Path := "/" |};
     Header := ∅; Host := host; ctx := [] |}.

(** A proxy whose current region has no code in the table. *)
Definition marsProxy : reverseProxy :=
  newReverseProxy "abcd1234" "mars-north1" "run.internal".

Definition exampleProxy : reverseProxy :=
  newReverseProxy "abcd1234" "us-central1" "run.internal".


(** * Facts about the embedding *)

(** ** The library functions on examples *)

Example ToLower_Foo : ToLower "Foo.Internal" = "foo.internal".
Proof. reflexivity. Qed.

Example Split_region :
  SplitByte "projects/123456/regions/us-central1" "/"
  = ["projects"; "123456"; "regions"; "us-central1"].
Proof. reflexivity. Qed.

Example Trim_dots : Trim ".run.internal." "." = "run.internal".
Proof. reflexivity. Qed.

Example TrimSuffix_domain :
  TrimSuffix "svc.run.internal" ("." +:+ "run.internal") = "svc".
Proof. reflexivity. Qed.

Example Quote_plain : Quote "svc:80" = String dquote ("svc:80" +:+ String dquote "").
Proof. reflexivity. Qed.

Example Quote_backslash : Quote "a\b" = String dquote ("a\\b" +:+ String dquote "").
Proof. reflexivity. Qed.

Example canonical_host : CanonicalMIMEHeaderKey "host" = "Host".
Proof. reflexivity. Qed.

Example canonical_flavor :
  CanonicalMIMEHeaderKey "Metadata-Flavor" = "Metadata-Flavor".
Proof. reflexivity. Qed.

Example SplitHostPort_port : SplitHostPort "svc.internal:8443" = ("svc.internal", "8443", None).
Proof. reflexivity. Qed.

Example SplitHostPort_noport :
  SplitHostPort "svc.internal" = ("", "", Some "address svc.internal: missing port in address").
Proof. reflexivity. Qed.

Example SplitHostPort_v6 : SplitHostPort "[::1]:80" = ("::1", "80", None).
Proof. reflexivity. Qed.

Example SplitHostPort_v6_noport :
  SplitHostPort "[::1]" = ("", "", Some "address [::1]: missing port in address").
Proof. reflexivity. Qed.

Example SplitHostPort_colons :
  SplitHostPort "::1:80" = ("", "", Some "address ::1:80: too many colons in address").
Proof. reflexivity. Qed.

Example resolve_myservice_bare :
  result (resolveCloudRunHost exampleRegionCodes "run.internal" "myservice"
            "us-central1" "abcd1234") exampleWorld
  = ("myservice-abcd1234-uc1.a.run.app", None).
Proof. vm_compute. reflexivity. Qed.

Example resolve_other_run_internal :
  resolveCloudRunHost exampleRegionCodes "run.internal" "Other.Run.Internal"
    "us-central1" "abcd1234" exampleWorld
  = (("myservice-abcd1234-uc1.a.run.app", None),
     [Klog_V 5 "number of trimmed=%s" [ArgInt 0];
      Call_Getenv "K_SERVICE";
      Klog_V 5 "service name response=%s" [ArgString "myservice"];
      Call_Do metadataRegionRequest;
      Klog_V 5 "region response=%s" [ArgString "us-central1"]]).
Proof. vm_compute. reflexivity. Qed.

(** ** Bytes and strings *)

Ltac each_byte c := destruct c as [[] [] [] [] [] [] [] []].

Lemma append_nil_l (t : string) : "" +:+ t = t.
Proof. reflexivity. Qed.

Lemma append_cons (c : ascii) (s t : string) :
  String c s +:+ t = String c (s +:+ t).
Proof. reflexivity. Qed.

Lemma append_assoc (s t u : string) : (s +:+ t) +:+ u = s +:+ t +:+ u.
Proof.
  induction s as [|c s IH]; [reflexivity|].
  rewrite !append_cons. now rewrite IH.
Qed.

Lemma append_nil_r (s : string) : s +:+ "" = s.
Proof.
  induction s as [|c s IH]; [reflexivity|].
  rewrite append_cons. now rewrite IH.
Qed.

Lemma toLowerByte_dot (c : ascii) :
  Ascii.eqb (toLowerByte c) "." = Ascii.eqb c ".".
Proof. each_byte c; reflexivity. Qed.

Lemma Contains_dot_cons (c : ascii) (s : string) :
  Contains (String c s) "." = Ascii.eqb c "." || Contains s ".".
Proof. simpl. now rewrite andb_true_r. Qed.

Lemma Contains_ToLower_dot (h : string) :
  Contains (ToLower h) "." = Contains h ".".
Proof.
  induction h as [|c h IH]; [reflexivity|].
  change (ToLower (String c h)) with (String (toLowerByte c) (ToLower h)).
  now rewrite !Contains_dot_cons, toLowerByte_dot, IH.
Qed.

Lemma ToLower_idempotent (h : string) : ToLower (ToLower h) = ToLower h.
Proof.
  induction h as [|c h IH]; [reflexivity|].
  simpl. rewrite IH. f_equal. each_byte c; reflexivity.
Qed.

(** ** Finding one string in another *)

Lemma HasPrefix_app (b c : string) : HasPrefix (b +:+ c) b = true.
Proof.
  induction b as [|x b IH]; [reflexivity|].
  rewrite append_cons. simpl. now rewrite Ascii.eqb_refl, IH.
Qed.

Lemma Contains_unfold (s b : string) :
  Contains s b
  = HasPrefix s b
    || match s with EmptyString => false | String _ s' => Contains s' b end.
Proof. destruct s; reflexivity. Qed.

Lemma Contains_app_l (b c : string) : Contains (b +:+ c) b = true.
Proof. rewrite Contains_unfold. now rewrite HasPrefix_app. Qed.

Lemma Contains_app_r (a t b : string) :
  Contains t b = true -> Contains (a +:+ t) b = true.
Proof.
  intros Ht. induction a as [|x a IH]; [exact Ht|].
  rewrite append_cons, Contains_unfold. rewrite IH. apply orb_true_r.
Qed.

Lemma Contains_middle (a b c : string) : Contains (a +:+ b +:+ c) b = true.
Proof. apply Contains_app_r, Contains_app_l. Qed.

Lemma Contains_end (a b : string) : Contains (a +:+ b) b = true.
Proof.
  apply Contains_app_r. rewrite <- (append_nil_r b) at 1. apply Contains_app_l.
Qed.

(** ** Quoting can be undone *)

Lemma unquoteByte_quoteByte (c : ascii) (t : string) :
  unquoteByte (quoteByte c +:+ t) = Some (c, t).
Proof. each_byte c; reflexivity. Qed.

Lemma quoteBody_inj (s1 s2 t1 t2 : string) :
  quoteBody s1 +:+ String dquote t1 = quoteBody s2 +:+ String dquote t2 ->
  s1 = s2 /\ t1 = t2.
Proof.
  revert s2. induction s1 as [|c1 s1 IH]; intros [|c2 s2]; simpl.
  - rewrite !append_nil_l. intros [= ->]. auto.
  - rewrite append_nil_l, append_assoc. intros Heq.
    apply (f_equal unquoteByte) in Heq.
    rewrite unquoteByte_quoteByte in Heq. discriminate.
  - rewrite append_nil_l, append_assoc. intros Heq.
    apply (f_equal unquoteByte) in Heq.
    rewrite unquoteByte_quoteByte in Heq. discriminate.
  - rewrite !append_assoc. intros Heq.
    apply (f_equal unquoteByte) in Heq.
    rewrite !unquoteByte_quoteByte in Heq.
    injection Heq as -> Hrest.
    destruct (IH s2 Hrest) as [-> ->]. auto.
Qed.

Lemma Quote_app (s t : string) :
  Quote s +:+ t = String dquote (quoteBody s +:+ String dquote t).
Proof. unfold Quote. rewrite append_cons, append_assoc. reflexivity. Qed.

Lemma errRegionNotHandled_inj (r1 r2 : string) :
  errRegionNotHandled r1 = errRegionNotHandled r2 -> r1 = r2.
Proof.
  unfold errRegionNotHandled. rewrite !Quote_app.
  intros Heq. apply (f_equal (from 7)) in Heq. simpl in Heq.
  injection Heq as Heq. now apply quoteBody_inj in Heq.
Qed.



(** ** Splitting host and port *)

Lemma IndexByte_app_None (a b : string) (c : ascii) :
  IndexByte a c = None -> IndexByte b c = None -> IndexByte (a +:+ b) c = None.
Proof.
  intros Ha Hb. induction a as [|x a IH]; [exact Hb|].
  rewrite append_cons. simpl in *.
  destruct (Ascii.eqb x c); [discriminate|].
  destruct (IndexByte a c); [discriminate|]. now rewrite IH.
Qed.

Lemma IndexByte_cons_None (x : ascii) (s : string) (c : ascii) :
  IndexByte (String x s) c = None -> Ascii.eqb x c = false /\ IndexByte s c = None.
Proof.
  simpl. destruct (Ascii.eqb x c); [discriminate|].
  destruct (IndexByte s c); [discriminate|]. auto.
Qed.

Lemma LastIndexByte_None (s : string) (c : ascii) :
  IndexByte s c = None -> LastIndexByte s c = None.
Proof.
  induction s as [|x s IH]; [reflexivity|].
  intros H. apply IndexByte_cons_None in H as [Hx Hs].
  simpl. now rewrite (IH Hs), Hx.
Qed.

Lemma LastIndexByte_sep (h p : string) (c : ascii) :
  IndexByte p c = None ->
  LastIndexByte (h +:+ String c p) c = Some (String.length h).
Proof.
  intros Hp. induction h as [|x h IH].
  - rewrite append_nil_l. simpl. now rewrite (LastIndexByte_None p c Hp), Ascii.eqb_refl.
  - rewrite append_cons. simpl. now rewrite IH.
Qed.

Lemma upto_app (h t : string) : upto (String.length h) (h +:+ t) = h.
Proof.
  induction h as [|x h IH]; [reflexivity|].
  rewrite append_cons. simpl. now rewrite IH.
Qed.

Lemma from_app_sep (h p : string) (c : ascii) :
  from (String.length h + 1) (h +:+ String c p) = p.
Proof.
  induction h as [|x h IH]; [reflexivity|].
  rewrite append_cons. simpl. exact IH.
Qed.

Lemma first_byte_app (h t : string) (x c : ascii) :
  IndexByte h c = None -> x <> c ->
  bool_decide (String.get 0 (h +:+ String x t) = Some c) = false.
Proof.
  intros Hh Hx. apply bool_decide_eq_false. destruct h as [|y h].
  - rewrite append_nil_l. simpl. congruence.
  - rewrite append_cons. simpl. apply IndexByte_cons_None in Hh as [Hy _].
    apply Ascii.eqb_neq in Hy. congruence.
Qed.

Lemma SplitHostPort_bracketFree (h p : string) :
  bracketFree h -> bracketFree p ->
  SplitHostPort (h +:+ ":" +:+ p) = (h, p, None).
Proof.
  intros (Hh1 & Hh2 & Hh3) (Hp1 & Hp2 & Hp3).
  change (":" +:+ p) with (String ":" p).
  unfold SplitHostPort. rewrite (LastIndexByte_sep h p ":" Hp1).
  rewrite (first_byte_app h p ":" "[" Hh2) by discriminate.
  rewrite upto_app, Hh1. simpl.
  rewrite (IndexByte_app_None h (String ":" p) "[" Hh2)
    by (simpl; now rewrite Hp2).
  rewrite (IndexByte_app_None h (String ":" p) "]" Hh3)
    by (simpl; now rewrite Hp3).
  simpl. now rewrite from_app_sep.
Qed.

Lemma origHostOf_port (h p : string) :
  bracketFree h -> bracketFree p -> origHostOf (h +:+ ":" +:+ p) = h.
Proof.
  intros Hh Hp. unfold origHostOf. now rewrite SplitHostPort_bracketFree.
Qed.

Lemma origHostOf_no_colon (h : string) :
  IndexByte h ":" = None -> origHostOf h = h.
Proof.
  intros Hh. unfold origHostOf, SplitHostPort.
  now rewrite (LastIndexByte_None h ":" Hh).
Qed.

(** ** The resolver, path by path *)

Ltac run_M :=
  unfold result, trace, mbind, M_bind, mret, M_ret, klog_V, klog_Warning,
    Getenv, Do, call_identityToken, call_RoundTrip; simpl.

Lemma resolve_bare (codes : gmap string string) (d h r p : string) (w : World) :
  Contains h "." = false ->
  resolveCloudRunHost codes d h r p w
  = (match codes !! r with
     | None => ("", Some (errRegionNotHandled r))
     | Some rc => (mkCloudRunHost (ToLower h) rc p, None)
     end, []).
Proof.
  intros Hbare. unfold resolveCloudRunHost.
  rewrite Contains_ToLower_dot, Hbare. simpl.
  destruct (codes !! r); reflexivity.
Qed.

Lemma resolve_qualified (codes : gmap string string) (d h r p : string) (w : World) :
  Contains h "." = true ->
  result (resolveCloudRunHost codes d h r p) w
  = match client_Do w metadataRegionRequest with
    | None => ("", Some errCantRetrieveRegion)
    | Some resp =>
        match codes !! metadataRegion resp with
        | None => ("", Some (errRegionNotHandled r))
        | Some rc => (mkCloudRunHost (os_Getenv w "K_SERVICE") rc p, None)
        end
    end.
Proof.
  intros Hdot. unfold resolveCloudRunHost, metadataRegion.
  rewrite Contains_ToLower_dot, Hdot. run_M.
  destruct (client_Do w metadataRegionRequest) as [resp|]; [|reflexivity].
  simpl. destruct (codes !! _); reflexivity.
Qed.

Lemma resolve_qualified_trace (codes : gmap string string) (d h r p : string) (w : World) :
  Contains h "." = true ->
  trace (resolveCloudRunHost codes d h r p) w
  = Klog_V 5 "number of trimmed=%s"
      [ArgInt (Z.of_nat (CountByte
         (TrimSuffix (ToLower h) ("." +:+ Trim d ".")) "."))]
    :: Call_Getenv "K_SERVICE"
    :: Klog_V 5 "service name response=%s" [ArgString (os_Getenv w "K_SERVICE")]
    :: Call_Do metadataRegionRequest
    :: match client_Do w metadataRegionRequest with
       | None => []
       | Some resp => [Klog_V 5 "region response=%s" [ArgString (metadataRegion resp)]]
       end.
Proof.
  intros Hdot. unfold resolveCloudRunHost, metadataRegion.
  rewrite Contains_ToLower_dot, Hdot. run_M.
  destruct (client_Do w metadataRegionRequest) as [resp|]; [|reflexivity].
  simpl. destruct (codes !! _); reflexivity.
Qed.

Lemma resolve_ToLower (codes : gmap string string) (d h1 h2 r p : string) (w : World) :
  ToLower h1 = ToLower h2 ->
  resolveCloudRunHost codes d h1 r p w = resolveCloudRunHost codes d h2 r p w.
Proof. intros Heq. unfold resolveCloudRunHost. now rewrite Heq. Qed.

Lemma errRegionNotHandled_not_metadata (r : string) :
  errRegionNotHandled r <> errCantRetrieveRegion.
Proof. unfold errRegionNotHandled, errCantRetrieveRegion. discriminate. Qed.

(** ** The Director *)

Lemma discardPort_result (host : string) (w : World) :
  result (discardPort host) w = origHostOf host.
Proof.
  unfold discardPort, origHostOf.
  destruct (SplitHostPort host) as [[h p] [e|]]; reflexivity.
Qed.

Lemma Director_result (codes : gmap string string) (rp : reverseProxy)
    (req : Request) (w : World) :
  result (Director codes rp req) w
  = directorOutcome rp req
      (result (resolveCloudRunHost codes (internalDomain rp) (origHostOf (Host req))
                 (currentRegion rp) (projectHash rp)) w).
Proof.
  unfold Director. rewrite <- (discardPort_result (Host req) w).
  run_M. destruct (discardPort (Host req) w) as [origHost t0]. simpl.
  destruct (resolveCloudRunHost codes (internalDomain rp) origHost
              (currentRegion rp) (projectHash rp) w) as [[runHost [e|]] t1];
    reflexivity.
Qed.








(** * The claims *)

(** ** Bare host names *)



(** ** The synthetic response *)




(** ** Qualified host names *)

(** C3: for a host name with a dot, the outcome of the resolver is the same
    for every such host name and every internal domain; on success the
    authority is made of the K_SERVICE value of the process environment and
    the code of the region reported by the metadata server; the trimmed host
    name only shows in the count that is logged first. *)
Theorem resolve_qualified_ignores_hostname
    (codes : gmap string string) (d h r p : string) (w : World) :
  Contains h "." = true ->
  (forall d' h', Contains h' "." = true ->
     result (resolveCloudRunHost codes d' h' r p) w
     = result (resolveCloudRunHost codes d h r p) w) /\
  (forall resp rc,
     client_Do w metadataRegionRequest = Some resp ->
     codes !! metadataRegion resp = Some rc ->
     result (resolveCloudRunHost codes d h r p) w
     = (os_Getenv w "K_SERVICE" +:+ "-" +:+ p +:+ "-" +:+ rc +:+ ".a.run.app", None)) /\
  (exists rest, forall d' h', Contains h' "." = true ->
     trace (resolveCloudRunHost codes d' h' r p) w
     = Klog_V 5 "number of trimmed=%s"
         [ArgInt (Z.of_nat (CountByte
            (TrimSuffix (ToLower h') ("." +:+ Trim d' ".")) "."))]
       :: rest).
Proof.
  intros Hdot. repeat split.
  - intros d' h' Hdot'. now rewrite !resolve_qualified by assumption.
  - intros resp rc Hdo Hrc. rewrite resolve_qualified by assumption.
    now rewrite Hdo, Hrc.
  - eexists. intros d' h' Hdot'.
    rewrite resolve_qualified_trace by assumption. reflexivity.
Qed.

Lemma resolve_qualified_ignores_hostname_witness :
  result (resolveCloudRunHost exampleRegionCodes "corp.example" "billing.corp.example"
            "us-central1" "abcd1234") exampleWorld
  = result (resolveCloudRunHost exampleRegionCodes "run.internal" "other.run.internal"
              "us-central1" "abcd1234") exampleWorld.
Proof.
  apply (proj1 (resolve_qualified_ignores_hostname exampleRegionCodes "run.internal"
                  "other.run.internal" "us-central1" "abcd1234" exampleWorld
                  eq_refl)).
  reflexivity.
Defined.

(** ** Registered and unregistered regions *)

(** C4: when the region used for the lookup is registered the resolver
    returns no error; when it is not, the resolver returns the error
    "region ... is not handled" together with the empty authority. *)
Theorem resolve_fails_iff_unregistered
    (codes : gmap string string) (d h r p : string) (w : World) (region : string) :
  lookupRegion h r w = Some region ->
  (is_Some (codes !! region) ->
   snd (result (resolveCloudRunHost codes d h r p) w) = None) /\
  (codes !! region = None ->
   result (resolveCloudRunHost codes d h r p) w = ("", Some (errRegionNotHandled r))).
Proof.
  unfold lookupRegion. destruct (Contains h ".") eqn:Hdot; intros Hreg.
  - rewrite resolve_qualified by assumption.
    destruct (client_Do w metadataRegionRequest) as [resp|]; [|discriminate].
    injection Hreg as <-. split.
    + intros [rc Hrc]. now rewrite Hrc.
    + intros Hnone. now rewrite Hnone.
  - injection Hreg as <-. unfold result. rewrite resolve_bare by assumption.
    split.
    + intros [rc Hrc]. now rewrite Hrc.
    + intros Hnone. now rewrite Hnone.
Qed.

Lemma resolve_fails_iff_unregistered_witness :
  snd (result (resolveCloudRunHost exampleRegionCodes "run.internal" "svc"
                 "us-central1" "abcd1234") exampleWorld) = None /\
  result (resolveCloudRunHost exampleRegionCodes "run.internal" "svc"
            "mars-north1" "abcd1234") exampleWorld
  = ("", Some (errRegionNotHandled "mars-north1")).
Proof.
  split.
  - apply (proj1 (resolve_fails_iff_unregistered exampleRegionCodes "run.internal"
                    "svc" "us-central1" "abcd1234" exampleWorld "us-central1"
                    eq_refl)).
    exists "uc1". reflexivity.
  - apply (proj2 (resolve_fails_iff_unregistered exampleRegionCodes "run.internal"
                    "svc" "mars-north1" "abcd1234" exampleWorld "mars-north1"
                    eq_refl)).
    reflexivity.
Defined.

(** ** The metadata request *)

(** C5, as stated, fails: an empty answer of the metadata server gives the
    error "region ... is not handled", not the error of the metadata
    request; and an error answer whose last segment is a registered region
    is made into an authority. *)
Lemma resolve_malformed_metadata_not_rejected :
  result (resolveCloudRunHost exampleRegionCodes "run.internal" "svc.run.internal"
            "us-central1" "abcd1234") emptyBodyWorld
  = ("", Some (errRegionNotHandled "us-central1")) /\
  errRegionNotHandled "us-central1" <> errCantRetrieveRegion /\
  result (resolveCloudRunHost exampleRegionCodes "run.internal" "svc.run.internal"
            "us-central1" "abcd1234") errorPageWorld
  = ("myservice-abcd1234-uc1.a.run.app", None).
Proof.
  split; [|split].
  - vm_compute. reflexivity.
  - apply errRegionNotHandled_not_metadata.
  - vm_compute. reflexivity.
Qed.

(** C5, amended: for a host name with a dot, the resolver returns the error
    of the metadata request exactly when [client.Do] returns an error, and
    then the authority is empty; when the server answers, whatever the
    status and the body, the last segment of the body is looked up as the
    region. *)
Theorem resolve_qualified_metadata_error
    (codes : gmap string string) (d h r p : string) (w : World) :
  Contains h "." = true ->
  (client_Do w metadataRegionRequest = None <->
   snd (result (resolveCloudRunHost codes d h r p) w) = Some errCantRetrieveRegion) /\
  (client_Do w metadataRegionRequest = None ->
   result (resolveCloudRunHost codes d h r p) w = ("", Some errCantRetrieveRegion)) /\
  (forall resp, client_Do w metadataRegionRequest = Some resp ->
   result (resolveCloudRunHost codes d h r p) w
   = match codes !! metadataRegion resp with
     | None => ("", Some (errRegionNotHandled r))
     | Some rc => (mkCloudRunHost (os_Getenv w "K_SERVICE") rc p, None)
     end).
Proof.
  intros Hdot. rewrite resolve_qualified by assumption.
  destruct (client_Do w metadataRegionRequest) as [resp|].
  - split; [|split].
    + split; [discriminate|].
      destruct (codes !! metadataRegion resp); simpl; [discriminate|].
      intros Heq. exfalso.
      apply (errRegionNotHandled_not_metadata r). congruence.
    + discriminate.
    + intros resp' [= <-]. reflexivity.
  - split; [|split].
    + split; reflexivity.
    + reflexivity.
    + discriminate.
Qed.

Lemma resolve_qualified_metadata_error_witness :
  result (resolveCloudRunHost exampleRegionCodes "run.internal" "svc.run.internal"
            "us-central1" "abcd1234") unreachableWorld
  = ("", Some errCantRetrieveRegion).
Proof.
  apply (proj1 (proj2 (resolve_qualified_metadata_error exampleRegionCodes
                         "run.internal" "svc.run.internal" "us-central1" "abcd1234"
                         unreachableWorld eq_refl))).
  reflexivity.
Defined.

(** ** The port of the Host value *)

(** C6, as stated, fails: for the host "[::1]" the Director resolves "::1"
    when the port 80 follows and "[::1]" when no port follows, and the two
    requests are sent to different authorities. *)
Lemma director_port_changes_bracketed_host :
  origHostOf ("[::1]" +:+ ":" +:+ "80") = "::1" /\
  origHostOf "[::1]" = "[::1]" /\
  Host (result (Director exampleRegionCodes exampleProxy
                  (inboundRequest ("[::1]" +:+ ":" +:+ "80"))) exampleWorld)
  = "::1-abcd1234-uc1.a.run.app" /\
  Host (result (Director exampleRegionCodes exampleProxy
                  (inboundRequest "[::1]")) exampleWorld)
  = "[::1]-abcd1234-uc1.a.run.app".
Proof. repeat split; vm_compute; reflexivity. Qed.

(** C6, amended: for a host [h] and a port [p] without colon and square
    bracket, the Director resolves [h] alone for the Host value [h:p], as it
    does for the Host value [h]; the outcome of the resolution is the same,
    and when it succeeds the two requests leave the Director equal. *)
Theorem director_port_invariance
    (codes : gmap string string) (rp : reverseProxy) (req : Request) (w : World)
    (h p : string) :
  bracketFree h -> bracketFree p ->
  let withPort := setHost req (h +:+ ":" +:+ p) in
  let withoutPort := setHost req h in
  let resolution (r : Request) :=
    result (resolveCloudRunHost codes (internalDomain rp) (origHostOf (Host r))
              (currentRegion rp) (projectHash rp)) w in
  origHostOf (Host withPort) = h /\
  origHostOf (Host withoutPort) = h /\
  resolution withPort = resolution withoutPort /\
  (snd (resolution withoutPort) = None ->
   result (Director codes rp withPort) w = result (Director codes rp withoutPort) w).
Proof.
  intros Hh Hp withPort withoutPort resolution.
  assert (H1 : origHostOf (Host withPort) = h) by now apply origHostOf_port.
  assert (H2 : origHostOf (Host withoutPort) = h)
    by (destruct Hh as [Hc _]; now apply origHostOf_no_colon).
  assert (H3 : resolution withPort = resolution withoutPort).
  { subst resolution. cbv beta. now rewrite H1, H2. }
  repeat split; try assumption.
  intros Hok. rewrite !Director_result.
  change (directorOutcome rp withPort (resolution withPort)
          = directorOutcome rp withoutPort (resolution withoutPort)).
  rewrite H3. destruct (resolution withoutPort) as [runHost [e|]];
    [discriminate|reflexivity].
Qed.

Lemma director_port_invariance_witness :
  origHostOf ("svc.internal" +:+ ":" +:+ "8443") = "svc.internal" /\
  result (Director exampleRegionCodes exampleProxy
            (setHost (inboundRequest "") ("svc.internal" +:+ ":" +:+ "8443")))
    exampleWorld
  = result (Director exampleRegionCodes exampleProxy
              (setHost (inboundRequest "") "svc.internal")) exampleWorld.
Proof.
  assert (Hh : bracketFree "svc.internal") by (repeat split).
  assert (Hp : bracketFree "8443") by (repeat split).
  split.
  - apply (proj1 (director_port_invariance exampleRegionCodes exampleProxy
                    (inboundRequest "") exampleWorld "svc.internal" "8443" Hh Hp)).
  - apply (proj2 (proj2 (proj2 (director_port_invariance exampleRegionCodes
                    exampleProxy (inboundRequest "") exampleWorld
                    "svc.internal" "8443" Hh Hp)))).
    reflexivity.
Defined.

(** ** Letter case *)

Lemma toLowerByte_upper (a b : ascii) :
  between "A" "Z" a = true ->
  (N_of_ascii b = N_of_ascii a + 32)%N ->
  toLowerByte a = toLowerByte b.
Proof.
  intros Ha Hb. unfold toLowerByte. rewrite Ha.
  assert (Hnb : between "A" "Z" b = false).
  { unfold between in *. rewrite Hb.
    apply andb_true_iff in Ha as [Hlo Hhi].
    apply N.leb_le in Hlo. apply N.leb_le in Hhi.
    apply andb_false_iff. right. apply N.leb_gt.
    change (N_of_ascii "A") with 65%N in *.
    change (N_of_ascii "Z") with 90%N in *. lia. }
  rewrite Hnb, <- Hb. apply ascii_N_embedding.
Qed.

Lemma sameLetter_toLowerByte (a b : ascii) :
  sameLetter a b = true -> toLowerByte a = toLowerByte b.
Proof.
  unfold sameLetter. rewrite !orb_true_iff, !andb_true_iff.
  intros [[Heq | [Ha Hb]] | [Hb Ha]].
  - apply Ascii.eqb_eq in Heq. now subst.
  - apply N.eqb_eq in Hb. now apply toLowerByte_upper.
  - apply N.eqb_eq in Ha. symmetry. now apply toLowerByte_upper.
Qed.

Lemma differOnlyInCase_ToLower (s t : string) :
  differOnlyInCase s t = true -> ToLower s = ToLower t.
Proof.
  revert t. induction s as [|a s IH]; intros [|b t]; simpl; try discriminate.
  - reflexivity.
  - rewrite andb_true_iff. intros [Hab Hst].
    now rewrite (sameLetter_toLowerByte a b Hab), (IH t Hst).
Qed.

(** C7: host names that differ only in letter case resolve identically,
    result and trace alike; the witness is the pair "Foo", "foo". *)
Theorem resolve_case_insensitive
    (codes : gmap string string) (d r p : string) (w : World) (h1 h2 : string) :
  differOnlyInCase h1 h2 = true ->
  resolveCloudRunHost codes d h1 r p w = resolveCloudRunHost codes d h2 r p w.
Proof.
  intros Hcase. apply resolve_ToLower. now apply differOnlyInCase_ToLower.
Qed.

Lemma resolve_case_insensitive_witness :
  differOnlyInCase "Foo" "foo" = true /\
  resolveCloudRunHost exampleRegionCodes "run.internal" "Foo" "us-central1"
    "abcd1234" exampleWorld
  = resolveCloudRunHost exampleRegionCodes "run.internal" "foo" "us-central1"
      "abcd1234" exampleWorld.
Proof.
  split; [reflexivity|].
  apply (resolve_case_insensitive exampleRegionCodes "run.internal" "us-central1"
           "abcd1234" exampleWorld "Foo" "foo").
  reflexivity.
Defined.

(** ** The token audience *)

(** C8: [tokenFromHost h] asks the token provider once, for the audience
    "https://" followed by [h]; it returns the provider's token when the
    provider returns no error; otherwise it returns an error whose message
    contains [h] and the provider's error. *)
Theorem tokenFromHost_audience (h : string) (w : World) :
  (exists logged,
     trace (tokenFromHost h) w
     = [Call_identityToken ("https://" +:+ h);
        Klog_V 5 "[authorization] receive idToken=%s" [ArgString logged]]) /\
  (forall token, identityToken w ("https://" +:+ h) = (token, None) ->
     result (tokenFromHost h) w = (token, None)) /\
  (forall token cause, identityToken w ("https://" +:+ h) = (token, Some cause) ->
     exists msg, result (tokenFromHost h) w = ("", Some msg)
       /\ msg = "failed to fetch metadata token from host " +:+ h +:+ ": " +:+ cause
       /\ Contains msg h = true /\ Contains msg cause = true).
Proof.
  unfold tokenFromHost. run_M.
  destruct (identityToken w ("https://" +:+ h)) as [tok [e|]] eqn:Hid; simpl.
  - split; [eexists; reflexivity|]. split; [discriminate|].
    intros token cause [= <- <-]. eexists. split; [reflexivity|].
    split; [reflexivity|]. split.
    + apply Contains_middle.
    + rewrite <- !append_assoc. apply Contains_end.
  - split; [eexists; reflexivity|]. split; [|discriminate].
    intros token [= <-]. reflexivity.
Qed.

Lemma tokenFromHost_audience_witness :
  result (tokenFromHost "myservice-abcd1234-uc1.a.run.app") exampleWorld
  = ("token-for-https://myservice-abcd1234-uc1.a.run.app", None) /\
  exists msg,
    result (tokenFromHost "myservice-abcd1234-uc1.a.run.app") refusingWorld
    = ("", Some msg)
    /\ msg = "failed to fetch metadata token from host "
             +:+ "myservice-abcd1234-uc1.a.run.app" +:+ ": "
             +:+ "metadata server unreachable"
    /\ Contains msg "myservice-abcd1234-uc1.a.run.app" = true
    /\ Contains msg "metadata server unreachable" = true.
Proof.
  split.
  - apply (proj1 (proj2 (tokenFromHost_audience "myservice-abcd1234-uc1.a.run.app"
                           exampleWorld))).
    reflexivity.
  - apply (proj2 (proj2 (tokenFromHost_audience "myservice-abcd1234-uc1.a.run.app"
                           refusingWorld)) "").
    reflexivity.
Defined.

(** ** The request after a failed resolution *)

(** C9: when the resolution fails, the request leaves the Director with its
    method, URL (scheme and host), [Host] field and headers as they were; it
    is the request on entry with one more binding, under the early-response
    key, in front of its context. *)
Theorem director_failure_frame
    (codes : gmap string string) (rp : reverseProxy) (req : Request) (w : World)
    (a : string) (e : error) :
  result (resolveCloudRunHost codes (internalDomain rp) (origHostOf (Host req))
            (currentRegion rp) (projectHash rp)) w = (a, Some e) ->
  let out := result (Director codes rp req) w in
  Scheme (Url out) = Scheme (Url req) /\
  u_Host (Url out) = u_Host (Url req) /\
  Url out = Url req /\
  Host out = Host req /\
  Header out = Header req /\
  Method out = Method req /\
  exists resp,
    ctx out = (ctxKeyEarlyResponse, CtxResponse resp) :: ctx req /\
    out = WithContext req (WithValue (ctx req) ctxKeyEarlyResponse (CtxResponse resp)).
Proof.
  intros Hfail out. subst out. rewrite Director_result, Hfail. simpl.
  repeat split; try reflexivity. eexists. split; reflexivity.
Qed.

Lemma director_failure_frame_witness :
  let req := inboundRequest "svc:8080" in
  let out := result (Director exampleRegionCodes marsProxy req) exampleWorld in
  Scheme (Url out) = Scheme (Url req) /\
  u_Host (Url out) = u_Host (Url req) /\
  Url out = Url req /\
  Host out = Host req /\
  Header out = Header req /\
  Method out = Method req /\
  exists resp,
    ctx out = (ctxKeyEarlyResponse, CtxResponse resp) :: ctx req /\
    out = WithContext req (WithValue (ctx req) ctxKeyEarlyResponse (CtxResponse resp)).
Proof.
  apply (director_failure_frame exampleRegionCodes marsProxy
           (inboundRequest "svc:8080") exampleWorld ""
           (errRegionNotHandled "mars-north1")).
  reflexivity.
Defined.

(** ** The region named by the error *)

(** C10: for a host name with a dot, when the region reported by the
    metadata server has no code, the error is "region ... is not handled"
    with the [curRegion] argument in it; it is not the message for the
    reported region unless the two regions are the same. *)
Theorem resolve_qualified_error_names_curRegion
    (codes : gmap string string) (d h r p : string) (w : World) (resp : Response) :
  Contains h "." = true ->
  client_Do w metadataRegionRequest = Some resp ->
  codes !! metadataRegion resp = None ->
  result (resolveCloudRunHost codes d h r p) w = ("", Some (errRegionNotHandled r)) /\
  (metadataRegion resp <> r ->
   snd (result (resolveCloudRunHost codes d h r p) w)
   <> Some (errRegionNotHandled (metadataRegion resp))).
Proof.
  intros Hdot Hdo Hnone.
  assert (Hres : result (resolveCloudRunHost codes d h r p) w
                 = ("", Some (errRegionNotHandled r))).
  { rewrite resolve_qualified by assumption. now rewrite Hdo, Hnone. }
  split; [exact Hres|].
  intros Hne. rewrite Hres. simpl. intros Heq.
  apply Hne, errRegionNotHandled_inj. congruence.
Qed.

Lemma resolve_qualified_error_names_curRegion_witness :
  result (resolveCloudRunHost exampleRegionCodes "run.internal" "svc.run.internal"
            "us-central1" "abcd1234") marsWorld
  = ("", Some (errRegionNotHandled "us-central1")).
Proof.
  apply (proj1 (resolve_qualified_error_names_curRegion exampleRegionCodes
                  "run.internal" "svc.run.internal" "us-central1" "abcd1234" marsWorld
                  {| StatusCode := 200; Body := "projects/123456/regions/mars-north1" |}
                  eq_refl eq_refl eq_refl)).
Defined.

(** * Further properties of the code *)

(** ** More on strings *)

Lemma length_append (a b : string) :
  String.length (a +:+ b) = String.length a + String.length b.
Proof.
  induction a as [|x a IH]; [reflexivity|].
  rewrite append_cons. simpl. now rewrite IH.
Qed.

Lemma from_length_append (a b : string) : from (String.length a) (a +:+ b) = b.
Proof.
  induction a as [|x a IH]; [now destruct b|].
  rewrite append_cons. simpl. exact IH.
Qed.

Lemma HasSuffix_append (a b : string) : HasSuffix (a +:+ b) b = true.
Proof.
  unfold HasSuffix. rewrite length_append.
  replace (String.length a + String.length b - String.length b)
    with (String.length a) by lia.
  rewrite from_length_append, String.eqb_refl, andb_true_r.
  apply Nat.leb_le. lia.
Qed.

Lemma append_cancel_r (a b t : string) : a +:+ t = b +:+ t -> a = b.
Proof.
  revert b. induction a as [|x a IH]; intros [|y b] Heq.
  - reflexivity.
  - apply (f_equal String.length) in Heq.
    rewrite append_nil_l, append_cons in Heq. simpl in Heq.
    rewrite length_append in Heq. lia.
  - apply (f_equal String.length) in Heq.
    rewrite append_nil_l, append_cons in Heq. simpl in Heq.
    rewrite length_append in Heq. lia.
  - rewrite !append_cons in Heq. injection Heq as -> Heq.
    now rewrite (IH b Heq).
Qed.

Lemma append_split_first (a a' x x' : string) (c : ascii) :
  IndexByte a c = None -> IndexByte a' c = None ->
  a +:+ String c x = a' +:+ String c x' -> a = a' /\ x = x'.
Proof.
  revert a'. induction a as [|y a IH]; intros [|y' a'] Ha Ha' Heq.
  - rewrite !append_nil_l in Heq. injection Heq as ->. auto.
  - rewrite append_nil_l, append_cons in Heq. injection Heq as <- _.
    apply IndexByte_cons_None in Ha' as [Hy _].
    rewrite Ascii.eqb_refl in Hy. discriminate.
  - rewrite append_nil_l, append_cons in Heq. injection Heq as -> _.
    apply IndexByte_cons_None in Ha as [Hy _].
    rewrite Ascii.eqb_refl in Hy. discriminate.
  - rewrite !append_cons in Heq. injection Heq as -> Heq.
    apply IndexByte_cons_None in Ha as [_ Ha].
    apply IndexByte_cons_None in Ha' as [_ Ha'].
    destruct (IH a' Ha Ha' Heq) as [-> ->]. auto.
Qed.

Lemma LastIndexByte_lt (s : string) (c : ascii) (i : nat) :
  LastIndexByte s c = Some i -> i < String.length s.
Proof.
  revert i. induction s as [|x s IH]; intros i; simpl; [discriminate|].
  destruct (LastIndexByte s c) as [j|].
  - intros [= <-]. specialize (IH j eq_refl). lia.
  - destruct (Ascii.eqb x c); [|discriminate]. intros [= <-]. lia.
Qed.

Lemma LastIndexByte_append_None (s t : string) (c : ascii) :
  IndexByte t c = None -> LastIndexByte (s +:+ t) c = LastIndexByte s c.
Proof.
  intros Ht. induction s as [|x s IH].
  - rewrite append_nil_l. now apply LastIndexByte_None.
  - rewrite append_cons. simpl. now rewrite IH.
Qed.

Lemma from_append_le (n : nat) (s t : string) :
  n <= String.length s -> from n (s +:+ t) = from n s +:+ t.
Proof.
  revert s. induction n as [|n IH]; intros s Hn; [reflexivity|].
  destruct s as [|x s]; simpl in Hn; [lia|].
  rewrite append_cons. simpl. apply IH. lia.
Qed.

(** The pieces of [SplitByte], by whether the separator occurs. *)
Lemma SplitByte_last (s : string) (sep : ascii) :
  (LastIndexByte s sep = None /\ SplitByte s sep = [s]) \/
  (exists i piece rest,
     LastIndexByte s sep = Some i /\ SplitByte s sep = piece :: rest /\
     rest <> [] /\ List.last rest "" = from (i + 1) s).
Proof.
  induction s as [|x s IH]; [left; auto|]. simpl.
  destruct (Ascii.eqb x sep) eqn:Hx.
  - right. destruct IH as [[Hnone Hsplit] | (i & piece & rest & Hi & Hsplit & Hrest & Hlast)].
    + exists 0, "", [s]. rewrite Hnone, Hsplit. repeat split. discriminate.
    + exists (S i), "", (piece :: rest). rewrite Hi, Hsplit.
      repeat split; [discriminate|].
      destruct rest as [|r rest]; [contradiction|]. exact Hlast.
  - destruct IH as [[Hnone Hsplit] | (i & piece & rest & Hi & Hsplit & Hrest & Hlast)].
    + left. now rewrite Hnone, Hsplit.
    + right. exists (S i), (String x piece), rest. rewrite Hi, Hsplit.
      repeat split; assumption.
Qed.

Lemma last_SplitByte (s : string) (sep : ascii) :
  List.last (SplitByte s sep) ""
  = match LastIndexByte s sep with
    | Some i => from (i + 1) s
    | None => s
    end.
Proof.
  destruct (SplitByte_last s sep)
    as [[Hnone Hsplit] | (i & piece & rest & Hi & Hsplit & Hrest & Hlast)].
  - now rewrite Hnone, Hsplit.
  - rewrite Hi, Hsplit. destruct rest as [|r rest]; [contradiction|]. exact Hlast.
Qed.

(** ** The resolver *)

(** X1: every outcome of the resolver has one of two shapes.  On success
    the authority is [mkCloudRunHost] of some service name and of a code of
    the table, and ends in ".a.run.app".  On failure the authority is empty
    and the error is the region-not-handled message for [curRegion] or, for
    a host name with a dot only, the message of the metadata request. *)
Theorem resolve_outcome_shape
    (codes : gmap string string) (d h r p : string) (w : World) :
  match result (resolveCloudRunHost codes d h r p) w with
  | (a, None) =>
      (exists svc region rc,
         codes !! region = Some rc /\ a = mkCloudRunHost svc rc p) /\
      HasSuffix a ".a.run.app" = true
  | (a, Some e) =>
      a = "" /\
      (e = errRegionNotHandled r \/
       (Contains h "." = true /\ e = errCantRetrieveRegion))
  end.
Proof.
  assert (Hsuffix : forall svc rc,
             HasSuffix (mkCloudRunHost svc rc p) ".a.run.app" = true).
  { intros svc rc. unfold mkCloudRunHost.
    rewrite <- !append_assoc. apply HasSuffix_append. }
  destruct (Contains h ".") eqn:Hdot.
  - rewrite resolve_qualified by assumption.
    destruct (client_Do w metadataRegionRequest) as [resp|]; [|auto].
    destruct (codes !! metadataRegion resp) as [rc|] eqn:Hrc; [|auto].
    split; [|apply Hsuffix]. now exists (os_Getenv w "K_SERVICE"), (metadataRegion resp), rc.
  - unfold result. rewrite resolve_bare by assumption. simpl.
    destruct (codes !! r) as [rc|] eqn:Hrc; [|auto].
    split; [|apply Hsuffix]. now exists (ToLower h), r, rc.
Qed.

(** X2: a bare host name is resolved without the outside: the outcome is
    the same in every world and for every internal domain, and the trace is
    empty. *)
Theorem resolve_bare_pure
    (codes : gmap string string) (d d' h r p : string) (w w' : World) :
  Contains h "." = false ->
  resolveCloudRunHost codes d h r p w = resolveCloudRunHost codes d' h r p w' /\
  trace (resolveCloudRunHost codes d h r p) w = [].
Proof.
  intros Hbare. unfold trace. rewrite !resolve_bare by assumption. auto.
Qed.

Lemma resolve_bare_pure_witness :
  resolveCloudRunHost exampleRegionCodes "run.internal" "svc" "us-central1"
    "abcd1234" exampleWorld
  = resolveCloudRunHost exampleRegionCodes "corp.example" "svc" "us-central1"
      "abcd1234" unreachableWorld.
Proof.
  apply (proj1 (resolve_bare_pure exampleRegionCodes "run.internal" "corp.example"
                  "svc" "us-central1" "abcd1234" exampleWorld unreachableWorld
                  eq_refl)).
Defined.

(** X3: the calls of the resolver to the outside.  A bare host name makes
    none; a host name with a dot makes two, the read of K_SERVICE and then
    the metadata request, whatever the arguments and whatever the answers:
    the request carries nothing of the host name, and K_SERVICE is read also
    when the metadata request then fails. *)
Theorem resolve_calls
    (codes : gmap string string) (d h r p : string) (w : World) :
  calls (trace (resolveCloudRunHost codes d h r p) w)
  = if Contains h "." then [Call_Getenv "K_SERVICE"; Call_Do metadataRegionRequest]
    else [].
Proof.
  destruct (Contains h ".") eqn:Hdot.
  - rewrite resolve_qualified_trace by assumption.
    destruct (client_Do w metadataRegionRequest); reflexivity.
  - unfold trace. now rewrite resolve_bare.
Qed.

(** X4: for a host name with a dot the [curRegion] argument only words the
    error: the authority, and whether there is an error, are the same for
    every [curRegion]. *)
Theorem resolve_qualified_ignores_curRegion
    (codes : gmap string string) (d h r r' p : string) (w : World) :
  Contains h "." = true ->
  fst (result (resolveCloudRunHost codes d h r p) w)
  = fst (result (resolveCloudRunHost codes d h r' p) w) /\
  (snd (result (resolveCloudRunHost codes d h r p) w) = None <->
   snd (result (resolveCloudRunHost codes d h r' p) w) = None).
Proof.
  intros Hdot. rewrite !resolve_qualified by assumption.
  destruct (client_Do w metadataRegionRequest) as [resp|]; [|split; reflexivity].
  destruct (codes !! metadataRegion resp); simpl; split; try reflexivity;
    split; discriminate.
Qed.

Lemma resolve_qualified_ignores_curRegion_witness :
  fst (result (resolveCloudRunHost exampleRegionCodes "run.internal"
                 "svc.run.internal" "mars-north1" "abcd1234") exampleWorld)
  = fst (result (resolveCloudRunHost exampleRegionCodes "run.internal"
                   "svc.run.internal" "us-central1" "abcd1234") exampleWorld).
Proof.
  apply (proj1 (resolve_qualified_ignores_curRegion exampleRegionCodes "run.internal"
                  "svc.run.internal" "mars-north1" "us-central1" "abcd1234"
                  exampleWorld eq_refl)).
Defined.

(** X5: the [internalDomain] argument never changes the outcome of the
    resolver, for any host name: it only enters the count that is logged. *)
Theorem resolve_ignores_internalDomain
    (codes : gmap string string) (d d' h r p : string) (w : World) :
  result (resolveCloudRunHost codes d h r p) w
  = result (resolveCloudRunHost codes d' h r p) w.
Proof.
  destruct (Contains h ".") eqn:Hdot.
  - now rewrite !resolve_qualified by assumption.
  - unfold result. now rewrite !resolve_bare by assumption.
Qed.



(** X7: the region taken from the answer of the metadata server is the text
    after the last "/" of the body, the whole body when it has none. *)
Theorem metadataRegion_after_last_slash (resp : Response) :
  metadataRegion resp
  = match LastIndexByte (Body resp) "/" with
    | Some i => from (i + 1) (Body resp)
    | None => Body resp
    end.
Proof. unfold metadataRegion. apply last_SplitByte. Qed.

(** X8: nothing is trimmed from the answer of the metadata server and its
    status is not looked at: text without "/" added at the end of the body,
    a line end for one, is added at the end of the region. *)
Theorem metadataRegion_keeps_tail (status status' : Z) (body tail : string) :
  IndexByte tail "/" = None ->
  metadataRegion {| StatusCode := status; Body := body +:+ tail |}
  = metadataRegion {| StatusCode := status'; Body := body |} +:+ tail.
Proof.
  intros Htail. unfold metadataRegion. simpl. rewrite !last_SplitByte.
  rewrite (LastIndexByte_append_None body tail "/" Htail).
  destruct (LastIndexByte body "/") as [i|] eqn:Hi; [|reflexivity].
  apply from_append_le. apply LastIndexByte_lt in Hi. lia.
Qed.

Lemma metadataRegion_keeps_tail_witness :
  metadataRegion {| StatusCode := 200;
                    Body := "projects/123456/regions/us-central1"
                            +:+ String "010" "" |}
  = "us-central1" +:+ String "010" "".
Proof.
  apply (metadataRegion_keeps_tail 200 200 "projects/123456/regions/us-central1"
           (String "010" "")).
  reflexivity.
Defined.

(** X9: [mkCloudRunHost] keeps its parts apart when the service name and
    the project hash have no "-": two authorities are equal only for equal
    service names, equal region codes and equal project hashes. *)
Theorem mkCloudRunHost_injective (svc svc' rc rc' p p' : string) :
  dashFree svc -> dashFree svc' -> dashFree p -> dashFree p' ->
  mkCloudRunHost svc rc p = mkCloudRunHost svc' rc' p' ->
  svc = svc' /\ rc = rc' /\ p = p'.
Proof.
  unfold dashFree, mkCloudRunHost. intros Hs Hs' Hp Hp' Heq.
  change ("-" +:+ p +:+ "-" +:+ rc +:+ ".a.run.app")
    with (String "-" (p +:+ String "-" (rc +:+ ".a.run.app"))) in Heq.
  change ("-" +:+ p' +:+ "-" +:+ rc' +:+ ".a.run.app")
    with (String "-" (p' +:+ String "-" (rc' +:+ ".a.run.app"))) in Heq.
  apply append_split_first in Heq as [-> Heq]; try assumption.
  apply append_split_first in Heq as [-> Heq]; try assumption.
  apply append_cancel_r in Heq. auto.
Qed.

Example mkCloudRunHost_dash_collision :
  mkCloudRunHost "a-b" "uc1" "c" = mkCloudRunHost "a" "uc1" "b-c".
Proof. reflexivity. Qed.

Lemma mkCloudRunHost_injective_witness :
  "myservice" = "myservice" /\ "uc1" = "uc1" /\ "abcd1234" = "abcd1234".
Proof.
  apply (mkCloudRunHost_injective "myservice" "myservice" "uc1" "uc1"
           "abcd1234" "abcd1234"); reflexivity.
Defined.

(** ** The Director *)

Lemma calls_app (t1 t2 : list Event) : calls (t1 ++ t2) = calls t1 ++ calls t2.
Proof. apply List.filter_app. Qed.

Lemma discardPort_calls (host : string) (w : World) :
  calls (trace (discardPort host) w) = [].
Proof.
  unfold discardPort.
  destruct (SplitHostPort host) as [[h p] [e|]]; reflexivity.
Qed.

Lemma Value_WithValue (c : Context) (k key : string) (v : ctxValue) :
  Value (WithValue c k v) key = if String.eqb k key then Some v else Value c key.
Proof. reflexivity. Qed.

Lemma Header_Set_host (h : gmap string (list string)) (v : string) :
  Header_Set h "host" v = <["Host" := [v]]> h.
Proof. reflexivity. Qed.

(** X10: when the resolution succeeds with authority [runHost], the request
    leaves the Director with scheme "https", with [runHost] as URL host, as
    [Host] field and as the only value of the header "Host"; the other
    headers, the path, the method and the context are as they were. *)
Theorem director_success_rewrite
    (codes : gmap string string) (rp : reverseProxy) (req : Request) (w : World)
    (runHost : string) :
  result (resolveCloudRunHost codes (internalDomain rp) (origHostOf (Host req))
            (currentRegion rp) (projectHash rp)) w = (runHost, None) ->
  let out := result (Director codes rp req) w in
  Scheme (Url out) = "https" /\
  u_Host (Url out) = runHost /\
  Host out = runHost /\
  Header out !! "Host" = Some [runHost] /\
  (forall k : string, k <> "Host" -> Header out !! k = Header req !! k) /\
  Path (Url out) = Path (Url req) /\
  Method out = Method req /\
  ctx out = ctx req.
Proof.
  intros Hok out. subst out. rewrite Director_result, Hok. simpl.
  rewrite Header_Set_host. repeat split.
  - apply lookup_insert_eq.
  - intros k Hk. now apply lookup_insert_ne.
Qed.

Lemma director_success_rewrite_witness :
  let out := result (Director exampleRegionCodes exampleProxy
                       (inboundRequest "myservice")) exampleWorld in
  Scheme (Url out) = "https" /\
  u_Host (Url out) = "myservice-abcd1234-uc1.a.run.app" /\
  Host out = "myservice-abcd1234-uc1.a.run.app" /\
  Header out !! "Host" = Some ["myservice-abcd1234-uc1.a.run.app"].
Proof.
  pose proof (director_success_rewrite exampleRegionCodes exampleProxy
                (inboundRequest "myservice") exampleWorld
                "myservice-abcd1234-uc1.a.run.app" eq_refl) as H.
  simpl in H. destruct H as (H1 & H2 & H3 & H4 & _). auto.
Defined.

(** X11: in both outcomes the Director keeps the method and the path of the
    request and every value of its context under a key other than the
    early-response key. *)
Theorem director_keeps_method_path_context
    (codes : gmap string string) (rp : reverseProxy) (req : Request) (w : World) :
  let out := result (Director codes rp req) w in
  Method out = Method req /\
  Path (Url out) = Path (Url req) /\
  forall key : string, key <> ctxKeyEarlyResponse ->
    Value (ctx out) key = Value (ctx req) key.
Proof.
  intros out. subst out. rewrite Director_result.
  destruct (result _ w) as [runHost [e|]]; unfold directorOutcome.
  - split; [reflexivity|]. split; [reflexivity|]. intros key Hkey.
    unfold WithContext. cbn [ctx]. rewrite Value_WithValue.
    destruct (String.eqb_spec ctxKeyEarlyResponse key) as [Heq|_];
      [congruence|reflexivity].
  - repeat split.
Qed.

(** X12: for a request that comes in without an early response, the context
    has one after the Director exactly when the resolution failed. *)
Theorem director_marks_failure_only
    (codes : gmap string string) (rp : reverseProxy) (req : Request) (w : World) :
  Value (ctx req) ctxKeyEarlyResponse = None ->
  (is_Some (Value (ctx (result (Director codes rp req) w)) ctxKeyEarlyResponse)
   <-> is_Some (snd (result (resolveCloudRunHost codes (internalDomain rp)
                               (origHostOf (Host req)) (currentRegion rp)
                               (projectHash rp)) w))).
Proof.
  intros Hin. rewrite Director_result.
  destruct (result _ w) as [runHost [e|]]; simpl.
  - split; intros _; eauto.
  - rewrite Hin. split; intros [x Hx]; discriminate.
Qed.

Lemma director_marks_failure_only_witness :
  is_Some (Value (ctx (result (Director exampleRegionCodes marsProxy
                                 (inboundRequest "svc")) exampleWorld))
             ctxKeyEarlyResponse).
Proof.
  apply (proj2 (director_marks_failure_only exampleRegionCodes marsProxy
                  (inboundRequest "svc") exampleWorld eq_refl)).
  simpl. eauto.
Defined.



(** X14: the Director itself only logs: its calls to the outside are those
    of the resolver, none for a [Host] value that is bare once its port is
    discarded, the read of K_SERVICE and the metadata request otherwise; it
    never asks for a token and never sends the request. *)
Theorem director_calls
    (codes : gmap string string) (rp : reverseProxy) (req : Request) (w : World) :
  calls (trace (Director codes rp req) w)
  = if Contains (origHostOf (Host req)) "."
    then [Call_Getenv "K_SERVICE"; Call_Do metadataRegionRequest]
    else [].
Proof.
  rewrite <- (discardPort_result (Host req) w).
  pose proof (discardPort_calls (Host req) w) as H0.
  unfold Director. unfold result, trace in *. run_M.
  destruct (discardPort (Host req) w) as [origHost t0]. simpl in *.
  assert (H1 : calls (snd (resolveCloudRunHost codes (internalDomain rp) origHost
                             (currentRegion rp) (projectHash rp) w))
               = if Contains origHost "."
                 then [Call_Getenv "K_SERVICE"; Call_Do metadataRegionRequest]
                 else []).
  { destruct (Contains origHost ".") eqn:Hdot.
    - pose proof (resolve_qualified_trace codes (internalDomain rp) origHost
                    (currentRegion rp) (projectHash rp) w Hdot) as Ht.
      unfold trace in Ht. rewrite Ht.
      destruct (client_Do w metadataRegionRequest); reflexivity.
    - now rewrite resolve_bare. }
  destruct (resolveCloudRunHost codes (internalDomain rp) origHost
              (currentRegion rp) (projectHash rp) w) as [[runHost [e|]] t1];
    simpl in *; rewrite !calls_app, H0, H1; simpl; now rewrite app_nil_r.
Qed.

(** ** authorization.go *)

(** X15: [tokenFromHost] writes to the log, at verbosity 5, whatever token
    the provider returned, before it looks at the error; when the provider
    returns an error, the caller gets the empty token even if the provider
    returned a token with it. *)
Theorem tokenFromHost_logs_token (h : string) (w : World) :
  let answer := identityToken w ("https://" +:+ h) in
  trace (tokenFromHost h) w
  = [Call_identityToken ("https://" +:+ h);
     Klog_V 5 "[authorization] receive idToken=%s" [ArgString (fst answer)]] /\
  (is_Some (snd answer) -> fst (result (tokenFromHost h) w) = "").
Proof.
  unfold tokenFromHost. run_M.
  destruct (identityToken w ("https://" +:+ h)) as [tok [e|]]; simpl.
  - split; [reflexivity|]. reflexivity.
  - split; [reflexivity|]. intros [x Hx]. discriminate.
Qed.

Lemma tokenFromHost_logs_token_witness :
  fst (result (tokenFromHost "myservice-abcd1234-uc1.a.run.app") refusingWorld) = "".
Proof.
  apply (proj2 (tokenFromHost_logs_token "myservice-abcd1234-uc1.a.run.app"
                  refusingWorld)).
  simpl. eauto.
Defined.

(** ** Letter case and the port *)

Lemma length_ToLower (s : string) : String.length (ToLower s) = String.length s.
Proof. induction s as [|x s IH]; simpl; [reflexivity|now rewrite IH]. Qed.

Lemma upto_ToLower (n : nat) (s : string) : upto n (ToLower s) = ToLower (upto n s).
Proof.
  revert s. induction n as [|n IH]; intros [|x s]; simpl; try reflexivity.
  now rewrite IH.
Qed.

Lemma from_ToLower (n : nat) (s : string) : from n (ToLower s) = ToLower (from n s).
Proof.
  revert s. induction n as [|n IH]; intros [|x s]; simpl; try reflexivity.
  apply IH.
Qed.

Lemma toLowerByte_colon (a : ascii) : Ascii.eqb (toLowerByte a) ":" = Ascii.eqb a ":".
Proof. each_byte a; reflexivity. Qed.

Lemma toLowerByte_open (a : ascii) : Ascii.eqb (toLowerByte a) "[" = Ascii.eqb a "[".
Proof. each_byte a; reflexivity. Qed.

Lemma toLowerByte_close (a : ascii) : Ascii.eqb (toLowerByte a) "]" = Ascii.eqb a "]".
Proof. each_byte a; reflexivity. Qed.

Lemma IndexByte_ToLower (s : string) (c : ascii) :
  (forall a, Ascii.eqb (toLowerByte a) c = Ascii.eqb a c) ->
  IndexByte (ToLower s) c = IndexByte s c.
Proof.
  intros Hc. induction s as [|x s IH]; simpl; [reflexivity|].
  now rewrite Hc, IH.
Qed.

Lemma LastIndexByte_ToLower (s : string) (c : ascii) :
  (forall a, Ascii.eqb (toLowerByte a) c = Ascii.eqb a c) ->
  LastIndexByte (ToLower s) c = LastIndexByte s c.
Proof.
  intros Hc. induction s as [|x s IH]; simpl; [reflexivity|].
  now rewrite Hc, IH.
Qed.

Lemma get_ToLower (n : nat) (s : string) (c : ascii) :
  (forall a, Ascii.eqb (toLowerByte a) c = Ascii.eqb a c) ->
  bool_decide (String.get n (ToLower s) = Some c)
  = bool_decide (String.get n s = Some c).
Proof.
  intros Hc. revert n. induction s as [|x s IH]; intros [|n]; simpl;
    try reflexivity; [|apply IH].
  apply bool_decide_ext. split; intros [= Heq]; f_equal.
  - apply Ascii.eqb_eq. rewrite <- Hc. now apply Ascii.eqb_eq.
  - apply Ascii.eqb_eq. rewrite Hc. now apply Ascii.eqb_eq.
Qed.

(** Discarding the port and lower-casing commute. *)
Lemma origHostOf_ToLower (s : string) : origHostOf (ToLower s) = ToLower (origHostOf s).
Proof.
  unfold origHostOf, SplitHostPort, slice.
  rewrite (LastIndexByte_ToLower s ":" toLowerByte_colon).
  destruct (LastIndexByte s ":") as [i|]; [|reflexivity].
  rewrite (get_ToLower 0 s "[" toLowerByte_open).
  rewrite ?from_ToLower, ?upto_ToLower.
  rewrite ?(IndexByte_ToLower _ "[" toLowerByte_open).
  rewrite ?(IndexByte_ToLower _ "]" toLowerByte_close).
  rewrite ?(IndexByte_ToLower _ ":" toLowerByte_colon).
  rewrite length_ToLower.
  destruct (bool_decide (String.get 0 s = Some "["%char)).
  - destruct (IndexByte s "]") as [end_|]; [|reflexivity].
    rewrite ?from_ToLower, ?upto_ToLower.
    rewrite ?(IndexByte_ToLower _ "]" toLowerByte_close).
    rewrite (get_ToLower (end_ + 1) s ":" toLowerByte_colon).
    destruct (end_ + 1 =? String.length s)%nat; [reflexivity|].
    destruct (end_ + 1 =? i)%nat.
    + destruct (bool_decide (is_Some (IndexByte (from 1 s) "["))); [reflexivity|].
      destruct (bool_decide (is_Some (IndexByte (from (end_ + 1) s) "]")));
        reflexivity.
    + destruct (bool_decide (String.get (end_ + 1) s = Some ":"%char)); reflexivity.
  - destruct (bool_decide (is_Some (IndexByte (upto i s) ":"))); [reflexivity|].
    change (from 0 (ToLower s)) with (ToLower s). change (from 0 s) with s.
    rewrite ?(IndexByte_ToLower _ "[" toLowerByte_open).
    rewrite ?(IndexByte_ToLower _ "]" toLowerByte_close).
    destruct (bool_decide (is_Some (IndexByte s "["))); [reflexivity|].
    destruct (bool_decide (is_Some (IndexByte s "]"))); reflexivity.
Qed.

(** X16: the Director is blind to the letter case of the [Host] value, port
    or no port: two requests whose [Host] values differ only in letter case
    have the same outcome of the resolution, and leave the Director equal
    when it succeeds. *)
Theorem director_case_insensitive
    (codes : gmap string string) (rp : reverseProxy) (req : Request) (w : World)
    (h1 h2 : string) :
  differOnlyInCase h1 h2 = true ->
  let resolution (host : string) :=
    resolveCloudRunHost codes (internalDomain rp) (origHostOf host)
      (currentRegion rp) (projectHash rp) w in
  resolution h1 = resolution h2 /\
  (snd (fst (resolution h1)) = None ->
   result (Director codes rp (setHost req h1)) w
   = result (Director codes rp (setHost req h2)) w).
Proof.
  intros Hcase resolution.
  assert (Hres : resolution h1 = resolution h2).
  { subst resolution. cbv beta. apply resolve_ToLower.
    rewrite <- !origHostOf_ToLower.
    now rewrite (differOnlyInCase_ToLower h1 h2 Hcase). }
  split; [exact Hres|].
  intros Hok. rewrite !Director_result.
  change (Host (setHost req h1)) with h1. change (Host (setHost req h2)) with h2.
  unfold result. fold (resolution h1). fold (resolution h2). rewrite <- Hres.
  destruct (resolution h1) as [[runHost [e|]] t]; [discriminate|reflexivity].
Qed.

Lemma director_case_insensitive_witness :
  result (Director exampleRegionCodes exampleProxy
            (setHost (inboundRequest "") "MyService:8080")) exampleWorld
  = result (Director exampleRegionCodes exampleProxy
              (setHost (inboundRequest "") "myservice:8080")) exampleWorld.
Proof.
  apply (proj2 (director_case_insensitive exampleRegionCodes exampleProxy
                  (inboundRequest "") exampleWorld "MyService:8080" "myservice:8080"
                  eq_refl)).
  reflexivity.
Defined.
